(** * bioluigi: file-valued luigi parameters

    A shallow embedding of [bioluigi/parameter.py] and of its older copy
    [src/luigibio/parameter.py], and the properties of their [parse]
    methods.

    Python methods mutate [self] and may raise; both effects are kept: a
    method is a function from the instance to an outcome holding the
    result (a value or the exception raised), the instance as the method
    left it, and the calls the method made to the outside (the [os.path]
    probes, the statistics extractor, the predicate), in order. *)

From Stdlib Require Import String Ascii List Bool Arith Lia.
From stdpp Require Import base option strings gmap.
Import ListNotations.

Local Open Scope string_scope.
Local Open Scope list_scope.

(** ** The Python runtime as far as the two modules use it *)

Module Python.

Inductive Exception : Type :=
| ValueError (msg : string)
| TypeError (msg : string)
| OtherError (msg : string).

(** A call that leaves the module. *)
Inductive Event : Type :=
| Call_islink (path : string)
| Call_isfile (path : string)
| Call_exists (path : string)
| Call_from_file (path : option string) (format : string)
| Call_predicate.

Record Outcome (S A : Type) : Type := mkOutcome {
  result : Exception + A;
  final : S;
  events : list Event
}.
Arguments mkOutcome {S A} _ _ _.
Arguments result {S A} _.
Arguments final {S A} _.
Arguments events {S A} _.

(** A method body over an instance of type [S]. *)
Definition M (S A : Type) : Type := S -> Outcome S A.

Definition ret {S A} (a : A) : M S A :=
  fun self => mkOutcome (inr a) self [].

Definition raise {S A} (e : Exception) : M S A :=
  fun self => mkOutcome (inl e) self [].

(** An exception ends the body; what was assigned to [self] before it
    stays assigned. *)
Definition bind {S A B} (m : M S A) (k : A -> M S B) : M S B :=
  fun self =>
    let o := m self in
    match result o with
    | inl e => mkOutcome (inl e) (final o) (events o)
    | inr a =>
        let o' := k a (final o) in
        mkOutcome (result o') (final o') (events o ++ events o')
    end.

Definition get {S} : M S S :=
  fun self => mkOutcome (inr self) self [].

Definition put {S} (s : S) : M S unit :=
  fun _ => mkOutcome (inr tt) s [].

Definition emit {S} (e : Event) : M S unit :=
  fun self => mkOutcome (inr tt) self [e].

(** Run a method of the base class on the base part of the instance. *)
Definition zoom {S T A} (proj : S -> T) (upd : T -> S -> S) (m : M T A) : M S A :=
  fun self =>
    let o := m (proj self) in
    mkOutcome (result o) (upd (final o) self) (events o).

(** [template.format(arg)] for the templates of the two modules, which
    have one replacement field [{}] and no other brace: the field is
    replaced by the argument, which is not read again. A template
    without a field is returned as it is. *)
Fixpoint format (template arg : string) : string :=
  match template with
  | EmptyString => EmptyString
  | String c rest =>
      match rest with
      | String d rest' =>
          if (Ascii.eqb c "{" && Ascii.eqb d "}")%bool
          then arg +:+ rest'
          else String c (format rest arg)
      | EmptyString => String c EmptyString
      end
  end.

(** [str(v)] of an attribute that holds [None] or a string. *)
Definition str (v : option string) : string :=
  match v with
  | Some s => s
  | None => "None"
  end.

(** [needle in haystack] on strings. *)
Fixpoint contains (needle haystack : string) : bool :=
  String.prefix needle haystack ||
  match haystack with
  | EmptyString => false
  | String _ rest => contains needle rest
  end.

(** A positional or keyword argument of a constructor call. *)
Inductive PyVal : Type :=
| PyNone
| PyBool (b : bool)
| PyStr (s : string)
| PyEnum (name : string).

Definition has_key (k : string) (kwargs : list (string * PyVal)) : bool :=
  existsb (fun kv => String.eqb (fst kv) k) kwargs.

End Python.

Import Python.

Declare Scope py_scope.
Delimit Scope py_scope with py.
Notation "'let*' x ':=' m 'in' k" := (bind m (fun x => k))
  (at level 10, x name, m at level 100, k at level 200) : py_scope.
Notation "m ';;' k" := (bind m (fun _ => k))
  (at level 100, k at level 200, right associativity) : py_scope.
Local Open Scope py_scope.

(** ** [os.path] *)

Module OsPath.

Inductive FileKind : Type := Regular | Directory | Symlink | Special.

(** What the operating system answers. [lstat] looks at the path itself,
    [stat] follows symbolic links; [None] is [OSError]. [abspath] does
    not look at the file system apart from the working directory. *)
Record Os : Type := mkOs {
  abspath : string -> string;
  lstat : string -> option FileKind;
  stat : string -> option FileKind
}.

Section Probes.
Context (os : Os) {S : Type}.

(** [os.path.islink]: [lstat] succeeds and reports a link. *)
Definition islink (path : string) : M S bool :=
  emit (Call_islink path) ;;
  ret (match lstat os path with Some Symlink => true | _ => false end).

(** [os.path.isfile]: [stat] succeeds and reports a regular file. *)
Definition isfile (path : string) : M S bool :=
  emit (Call_isfile path) ;;
  ret (match stat os path with Some Regular => true | _ => false end).

(** [os.path.exists]: [stat] succeeds. *)
Definition exists_ (path : string) : M S bool :=
  emit (Call_exists path) ;;
  ret (match stat os path with Some _ => true | None => false end).
End Probes.

End OsPath.

Import OsPath.

(** ** [bioluigi/util.py] *)

Module Util.

(** Modelled from the spec: [value_error_if] of [bioluigi/util.py] (and of
    [luigibio/util.py]) is not among the sources. Every error is raised
    immediately at the point of detection: when the condition holds, a
    [ValueError] carrying the message is raised, otherwise nothing
    happens. *)
Definition value_error_if {S} (condition : bool) (message : string) : M S unit :=
  if condition then raise (ValueError message) else ret tt.

End Util.

Import Util.

(** ** [src/luigibio/parameter.py], the older copy *)

Module Luigibio.

Inductive FileExistence : Type := EXISTING | NON_EXISTING.

(** [a is b] on members of the enumeration. *)
Definition is_ (a b : FileExistence) : bool :=
  match a, b with
  | EXISTING, EXISTING | NON_EXISTING, NON_EXISTING => true
  | _, _ => false
  end.

Record FileParameter : Type := mkFileParameter {
  existence : FileExistence
}.

Section Constructors.
(** [luigi.Parameter.__init__] belongs to luigi: it takes the remaining
    arguments and raises or returns. *)
Context (luigi_Parameter_init : list PyVal -> list (string * PyVal) -> option Exception).

(** [FileParameter.__init__(self, existence, *args, **kwargs)], once
    [existence] is bound. *)
Definition FileParameter_init (existence : FileExistence)
    (args : list PyVal) (kwargs : list (string * PyVal))
  : Exception + FileParameter :=
  match luigi_Parameter_init args kwargs with
  | Some e => inl e
  | None => inr {| existence := existence |}
  end.
End Constructors.

Section Methods.
Context (os : Os).

Definition FileParameter_parse (x : string) : M FileParameter string :=
  let absolute_path := abspath os x in
  (* Disallow Links *)
  let* link := islink os absolute_path in
  value_error_if link "File {} is a symbolic link. This is currently not supported" ;;
  (* Check file existence *)
  let* self := get in
  let* missing :=
    (if is_ (existence self) EXISTING
     then let* file := isfile os absolute_path in ret (negb file)
     else ret false) in
  value_error_if missing
    (format "File {} does not exist or it is not a regular file!" absolute_path) ;;
  let* self := get in
  let* present :=
    (if is_ (existence self) NON_EXISTING
     then exists_ os absolute_path
     else ret false) in
  value_error_if present
    (format "File {} exists, but it must not!" absolute_path) ;;
  ret absolute_path.
End Methods.

End Luigibio.

(** ** [bioluigi/parameter.py] *)

Module Bioluigi.

Inductive FileExistence : Type := EXISTING | NON_EXISTING.

(** [a is b] on members of the enumeration. *)
Definition is_ (a b : FileExistence) : bool :=
  match a, b with
  | EXISTING, EXISTING | NON_EXISTING, NON_EXISTING => true
  | _, _ => false
  end.

Record FileParameter : Type := mkFileParameter {
  existence : FileExistence;
  absolute_path : option string
}.

(** [self.absolute_path = v] *)
Definition set_absolute_path (v : option string) : M FileParameter unit :=
  let* self := get in
  put {| existence := existence self; absolute_path := v |}.

(** [self.absolute_path] *)
Definition get_absolute_path : M FileParameter (option string) :=
  let* self := get in ret (absolute_path self).

(** A [SequenceFileParameter] has the attributes of its base class
    and the predicate. *)
Record SequenceFileParameter (Stats : Type) : Type := mkSequenceFileParameter {
  super : FileParameter;
  predicate : Stats -> bool
}.
Arguments mkSequenceFileParameter {Stats} _ _.
Arguments super {Stats} _.
Arguments predicate {Stats} _.

Definition set_super {Stats} (base : FileParameter) (self : SequenceFileParameter Stats)
  : SequenceFileParameter Stats :=
  {| super := base; predicate := predicate self |}.

Section Constructors.
(** [luigi.Parameter.__init__] belongs to luigi: it takes the remaining
    arguments and raises or returns. *)
Context (luigi_Parameter_init : list PyVal -> list (string * PyVal) -> option Exception).

(** [FileParameter.__init__(self, existence, *args, **kwargs)], once
    [existence] is bound. *)
Definition FileParameter_init (existence : FileExistence)
    (args : list PyVal) (kwargs : list (string * PyVal))
  : Exception + FileParameter :=
  match luigi_Parameter_init args kwargs with
  | Some e => inl e
  | None => inr {| existence := existence; absolute_path := None |}
  end.

(** [SequenceFileParameter.__init__(self, predicate, *args, **kwargs)].
    The call [__init__(existence=EXISTING, *args, **kwargs)] of the base
    class raises [TypeError] when [kwargs] has the key [existence] too,
    and when [args] is not empty, as its first member is bound to the
    parameter [existence] as well. The wording of the two messages
    depends on the version of the interpreter. *)
Definition SequenceFileParameter_init {Stats} (predicate : Stats -> bool)
    (args : list PyVal) (kwargs : list (string * PyVal))
  : Exception + SequenceFileParameter Stats :=
  if has_key "existence" kwargs
  then inl (TypeError "__init__() got multiple values for keyword argument 'existence'")
  else
    match args with
    | _ :: _ => inl (TypeError "__init__() got multiple values for argument 'existence'")
    | [] =>
        match FileParameter_init EXISTING [] kwargs with
        | inl e => inl e
        | inr base => inr {| super := base; predicate := predicate |}
        end
    end.
End Constructors.

Section Methods.
Context (os : Os).

Definition FileParameter_parse (x : string) : M FileParameter (option string) :=
  let absolute_path := abspath os x in
  (* Disallow Links *)
  let* link := islink os absolute_path in
  value_error_if link "File {} is a symbolic link. This is currently not supported" ;;
  (* Check file existence *)
  let* self := get in
  let* missing :=
    (if is_ (existence self) EXISTING
     then let* file := isfile os absolute_path in ret (negb file)
     else ret false) in
  value_error_if missing
    (format "File {} does not exist or it is not a regular file!" absolute_path) ;;
  let* self := get in
  let* present :=
    (if is_ (existence self) NON_EXISTING
     then exists_ os absolute_path
     else ret false) in
  value_error_if present
    (format "File {} exists, but it must not!" absolute_path) ;;
  set_absolute_path (Some absolute_path) ;;
  get_absolute_path.

(** [SequenceFileStats.from_file] belongs to [bioluigi/sequence.py],
    which is not among the sources: it reads and decodes the file and
    returns the statistics or raises. *)
Context {Stats : Type}
        (from_file : option string -> string -> Exception + Stats).

Definition SequenceFileStats_from_file (path : option string) (fmt : string)
  : M (SequenceFileParameter Stats) Stats :=
  emit (Call_from_file path fmt) ;;
  match from_file path fmt with
  | inl e => raise e
  | inr stats => ret stats
  end.

(** [self.predicate(stats)] *)
Definition call_predicate (stats : Stats) : M (SequenceFileParameter Stats) bool :=
  let* self := get in
  emit Call_predicate ;;
  ret (predicate self stats).

Definition SequenceFileParameter_stats : M (SequenceFileParameter Stats) Stats :=
  let* self := get in
  SequenceFileStats_from_file (absolute_path (super self)) "fasta".

Definition SequenceFileParameter_parse (x : string)
  : M (SequenceFileParameter Stats) (option string) :=
  (* Call Super to get the absolute file path, super will set the
     absolute file path *)
  let* absolute_path := zoom super set_super (FileParameter_parse x) in
  (* If the predicate fails, we have to raise Value Error *)
  let* stats := SequenceFileParameter_stats in
  let* ok := call_predicate stats in
  let* self := get in
  value_error_if (negb ok)
    (format "Sequence File {} does not satisfy the Predicate for the Sequence File stats."
            (str (Bioluigi.absolute_path (super self)))) ;;
  ret absolute_path.
End Methods.

End Bioluigi.

(** ** A POSIX file system to run the methods on

    Paths are mapped to nodes; [lstat] reads the node at the path, [stat]
    follows links as the kernel does, giving up after forty of them.
    [abspath] is [posixpath.abspath] for a given working directory. Link
    targets are absolute paths. *)

Module Posix.

Inductive Node : Type :=
| File (content : string)
| Dir
| Link (target : string)
| Fifo.

Definition kind (n : Node) : FileKind :=
  match n with
  | File _ => Regular
  | Dir => Directory
  | Link _ => Symlink
  | Fifo => Special
  end.

Definition fs_lstat (fs : gmap string Node) (path : string) : option FileKind :=
  kind <$> fs !! path.

Fixpoint follow (hops : nat) (fs : gmap string Node) (path : string) : option Node :=
  match fs !! path with
  | Some (Link target) =>
      match hops with
      | O => None
      | S hops' => follow hops' fs target
      end
  | other => other
  end.

Definition fs_stat (fs : gmap string Node) (path : string) : option FileKind :=
  kind <$> follow 40 fs path.

(** [path.split('/')] *)
Fixpoint split (path : string) : list string :=
  match path with
  | EmptyString => [EmptyString]
  | String c rest =>
      if Ascii.eqb c "/" then EmptyString :: split rest
      else match split rest with
           | comp :: comps => String c comp :: comps
           | [] => [String c EmptyString]
           end
  end.

(** ['/'.join(comps)] *)
Fixpoint join_sep (comps : list string) : string :=
  match comps with
  | [] => EmptyString
  | [comp] => comp
  | comp :: rest => comp +:+ "/" +:+ join_sep rest
  end.

Definition startswith (s p : string) : bool := String.prefix p s.

Fixpoint endswith_sep (s : string) : bool :=
  match s with
  | EmptyString => false
  | String c EmptyString => Ascii.eqb c "/"
  | String _ rest => endswith_sep rest
  end.

Definition is_nil {A} (l : list A) : bool :=
  match l with [] => true | _ => false end.

(** One round of the loop of [posixpath.normpath]. *)
Definition normpath_step (initial_slashes : nat) (new_comps : list string) (comp : string)
  : list string :=
  if String.eqb comp EmptyString || String.eqb comp "." then new_comps
  else if negb (String.eqb comp "..")
          || (Nat.eqb initial_slashes 0 && is_nil new_comps)
          || (negb (is_nil new_comps) && String.eqb (List.last new_comps EmptyString) "..")
       then new_comps ++ [comp]
       else List.removelast new_comps.

Definition normpath (path : string) : string :=
  if String.eqb path EmptyString then "."
  else
    let initial_slashes :=
      if startswith path "/"
      then if startswith path "//" && negb (startswith path "///") then 2 else 1
      else 0 in
    let comps := fold_left (normpath_step initial_slashes) (split path) [] in
    let path' := join_sep comps in
    let path' :=
      match initial_slashes with
      | 0 => path'
      | 1 => "/" +:+ path'
      | _ => "//" +:+ path'
      end in
    if String.eqb path' EmptyString then "." else path'.

(** [posixpath.join(a, b)] *)
Definition join (a b : string) : string :=
  if startswith b "/" then b
  else if String.eqb a EmptyString || endswith_sep a then a +:+ b
  else a +:+ "/" +:+ b.

Definition posix_abspath (cwd path : string) : string :=
  normpath (if startswith path "/" then path else join cwd path).

Definition posix (cwd : string) (fs : gmap string Node) : Os :=
  {| abspath := posix_abspath cwd;
     lstat := fs_lstat fs;
     stat := fs_stat fs |}.

(** A stand-in for the statistics of a FASTA file: the number of
    records, one for each [>] in the file. *)
Fixpoint count_records (content : string) : nat :=
  match content with
  | EmptyString => 0
  | String c rest => (if Ascii.eqb c ">" then 1 else 0) + count_records rest
  end.

Definition fasta_from_file (fs : gmap string Node) (path : option string) (fmt : string)
  : Exception + nat :=
  match path with
  | None => inl (TypeError "expected str, not NoneType")
  | Some p =>
      match follow 40 fs p with
      | Some (File content) =>
          if String.eqb content EmptyString then inl (ValueError "empty file")
          else inr (count_records content)
      | _ => inl (OtherError "cannot open file")
      end
  end.

Definition has_at_least_one_sequence (records : nat) : bool := Nat.ltb 0 records.

(** The directory of the scenarios: a FASTA file with two records, one
    with none, an empty file, links to a file and to nothing, a
    directory and a pipe. *)
Definition data : gmap string Node :=
  <[ "/work/data/reads.fasta" := File ">r1
ACGT
>r2
GGCA
" ]>
  (<[ "/work/data/notes.txt" := File "no records here" ]>
  (<[ "/work/data/empty.fasta" := File EmptyString ]>
  (<[ "/work/data/link.fasta" := Link "/work/data/reads.fasta" ]>
  (<[ "/work/data/dangling.fasta" := Link "/work/data/gone.fasta" ]>
  (<[ "/work/data" := Dir ]>
  (<[ "/work" := Dir ]>
  (<[ "/work/pipe" := Fifo ]> ∅))))))).

Definition os : Os := posix "/work" data.

(** A stand-in for [luigi.Parameter.__init__]: it takes the keywords
    of luigi's parameters, by position or by name. *)
Definition luigi_keywords : list string :=
  ["default"; "is_global"; "significant"; "description"; "config_path";
   "positional"; "always_in_help"; "batch_method"; "visibility"].

Definition luigi_init (args : list PyVal) (kwargs : list (string * PyVal))
  : option Exception :=
  if Nat.ltb (length luigi_keywords) (length args)
  then Some (TypeError "__init__() takes from 1 to 10 positional arguments")
  else if forallb (fun kv => existsb (String.eqb (fst kv)) luigi_keywords) kwargs
       then None
       else Some (TypeError "__init__() got an unexpected keyword argument").

End Posix.

(** ** The vocabulary of the specification *)

(** The five kinds of failure, as the exceptions the code raises for them.
    [UnreadableContent] is whatever the extractor raised. *)
Definition LinkNotSupported : Exception :=
  ValueError "File {} is a symbolic link. This is currently not supported".

Definition RequiredFileMissing (path : string) : Exception :=
  ValueError ("File " +:+ path +:+ " does not exist or it is not a regular file!").

Definition PathMustNotExist (path : string) : Exception :=
  ValueError ("File " +:+ path +:+ " exists, but it must not!").

Definition PredicateFailed (path : string) : Exception :=
  ValueError ("Sequence File " +:+ path
              +:+ " does not satisfy the Predicate for the Sequence File stats.").

Definition message (e : Exception) : string :=
  match e with
  | ValueError msg | TypeError msg | OtherError msg => msg
  end.

Definition succeeded {S A} (o : Outcome S A) : bool :=
  match result o with
  | inr _ => true
  | inl _ => false
  end.

Definition is_extractor_call (e : Event) : bool :=
  match e with Call_from_file _ _ => true | _ => false end.

Definition is_predicate_call (e : Event) : bool :=
  match e with Call_predicate => true | _ => false end.

Definition is_existence_probe (e : Event) : bool :=
  match e with Call_isfile _ | Call_exists _ => true | _ => false end.

Definition calls (which : Event -> bool) (trace : list Event) : nat :=
  length (List.filter which trace).

(** The member of the newer enumeration for a member of the older one. *)
Definition same_member (e : Luigibio.FileExistence) : Bioluigi.FileExistence :=
  match e with
  | Luigibio.EXISTING => Bioluigi.EXISTING
  | Luigibio.NON_EXISTING => Bioluigi.NON_EXISTING
  end.

(** A parameter of the scenarios, as its constructor leaves it. *)
Definition fresh (e : Bioluigi.FileExistence) : Bioluigi.FileParameter :=
  {| Bioluigi.existence := e; Bioluigi.absolute_path := None |}.

Definition fresh_sequence {Stats} (predicate : Stats -> bool)
  : Bioluigi.SequenceFileParameter Stats :=
  {| Bioluigi.super := fresh Bioluigi.EXISTING; Bioluigi.predicate := predicate |}.

(** The gated instance as the path check leaves it when it passes. *)
Definition path_stored {Stats} (path : string) (self : Bioluigi.SequenceFileParameter Stats)
  : Bioluigi.SequenceFileParameter Stats :=
  {| Bioluigi.super :=
       Bioluigi.mkFileParameter (Bioluigi.existence (Bioluigi.super self)) (Some path);
     Bioluigi.predicate := Bioluigi.predicate self |}.




(** Whether a parameter with the requirement accepts the input; what is
    stored on the instance has no part in it. *)
Definition accepts (os : Os) (requirement : Bioluigi.FileExistence) (x : string) : bool :=
  succeeded (Bioluigi.FileParameter_parse os x (fresh requirement)).

(** One instance, parsed on one input after the other, whether a call
    raises or returns: the instance after the last call. *)
Fixpoint parsed_in_turn (os : Os) (inputs : list string) (self : Bioluigi.FileParameter)
  : Bioluigi.FileParameter :=
  match inputs with
  | [] => self
  | x :: rest => parsed_in_turn os rest (final (Bioluigi.FileParameter_parse os x self))
  end.

(** The last input of the list that is accepted. *)
Definition last_accepted (os : Os) (requirement : Bioluigi.FileExistence)
    (inputs : list string) : option string :=
  List.find (accepts os requirement) (List.rev inputs).

(** Unfold a [parse] of the path check as far as the probes, so that the
    answers of the operating system can be told apart before the method
    is run. *)
Ltac expose_probes :=
  cbv beta zeta delta
    [Bioluigi.FileParameter_parse Luigibio.FileParameter_parse islink isfile exists_].

Ltac by_answers os x :=
  expose_probes;
  destruct (lstat os (abspath os x)) as [[]|];
  destruct (stat os (abspath os x)) as [[]|].

(** ** Strings *)

Lemma prefix_app (p s : string) : String.prefix p (p +:+ s) = true.
Proof.
  induction p as [|a p IH]; simpl.
  - destruct s; reflexivity.
  - destruct (Ascii.ascii_dec a a) as [_|ne]; [exact IH | contradiction].
Qed.

Lemma contains_prefix (needle haystack : string) :
  String.prefix needle haystack = true -> contains needle haystack = true.
Proof.
  intros H. destruct haystack; cbn [contains]; rewrite H; reflexivity.
Qed.

Lemma contains_app (needle before after : string) :
  contains needle (before +:+ needle +:+ after) = true.
Proof.
  induction before as [|c before IH].
  - change (EmptyString +:+ needle +:+ after) with (needle +:+ after).
    apply contains_prefix, prefix_app.
  - change (String c before +:+ needle +:+ after)
      with (String c (before +:+ needle +:+ after)).
    cbn [contains]. rewrite IH. apply orb_true_r.
Qed.

(** The three formatted messages, with the field filled in. *)
Lemma format_missing (path : string) :
  ValueError (format "File {} does not exist or it is not a regular file!" path)
  = RequiredFileMissing path.
Proof. reflexivity. Qed.

Lemma format_present (path : string) :
  ValueError (format "File {} exists, but it must not!" path) = PathMustNotExist path.
Proof. reflexivity. Qed.

Lemma format_predicate (path : string) :
  ValueError
    (format "Sequence File {} does not satisfy the Predicate for the Sequence File stats."
       path)
  = PredicateFailed path.
Proof. reflexivity. Qed.

(** ** Sequencing *)

Section Sequencing.
Context {S A B : Type} (m : M S A) (k : A -> M S B) (self : S).

Lemma bind_raised (e : Exception) :
  result (m self) = inl e ->
  bind m k self = mkOutcome (inl e) (final (m self)) (events (m self)).
Proof.
  intros H. unfold bind. rewrite H. reflexivity.
Qed.

Lemma bind_returned (a : A) :
  result (m self) = inr a ->
  bind m k self
  = mkOutcome (result (k a (final (m self)))) (final (k a (final (m self))))
      (events (m self) ++ events (k a (final (m self)))).
Proof.
  intros H. unfold bind. rewrite H. reflexivity.
Qed.
End Sequencing.

(** ** The path check, case by case *)

Section PathCheck.
Context (os : Os) (x : string).
Local Abbreviation path := (abspath os x).

Lemma parse_link (self : Bioluigi.FileParameter) :
  lstat os path = Some Symlink ->
  Bioluigi.FileParameter_parse os x self
  = mkOutcome (inl LinkNotSupported) self [Call_islink path].
Proof.
  intros Hl. expose_probes. rewrite Hl. vm_compute. reflexivity.
Qed.

Lemma parse_existing_file (stored : option string) :
  lstat os path <> Some Symlink ->
  stat os path = Some Regular ->
  Bioluigi.FileParameter_parse os x (Bioluigi.mkFileParameter Bioluigi.EXISTING stored)
  = mkOutcome (inr (Some path))
      (Bioluigi.mkFileParameter Bioluigi.EXISTING (Some path))
      [Call_islink path; Call_isfile path].
Proof.
  intros Hl Hs. expose_probes. rewrite Hs.
  destruct (lstat os path) as [[]|]; try (vm_compute; reflexivity). congruence.
Qed.

Lemma parse_existing_missing (stored : option string) :
  lstat os path <> Some Symlink ->
  stat os path <> Some Regular ->
  Bioluigi.FileParameter_parse os x (Bioluigi.mkFileParameter Bioluigi.EXISTING stored)
  = mkOutcome (inl (RequiredFileMissing path))
      (Bioluigi.mkFileParameter Bioluigi.EXISTING stored)
      [Call_islink path; Call_isfile path].
Proof.
  intros Hl Hs. by_answers os x; try congruence; vm_compute; reflexivity.
Qed.

Lemma parse_non_existing_free (stored : option string) :
  lstat os path <> Some Symlink ->
  stat os path = None ->
  Bioluigi.FileParameter_parse os x (Bioluigi.mkFileParameter Bioluigi.NON_EXISTING stored)
  = mkOutcome (inr (Some path))
      (Bioluigi.mkFileParameter Bioluigi.NON_EXISTING (Some path))
      [Call_islink path; Call_exists path].
Proof.
  intros Hl Hs. expose_probes. rewrite Hs.
  destruct (lstat os path) as [[]|]; try (vm_compute; reflexivity). congruence.
Qed.

Lemma parse_non_existing_taken (stored : option string) :
  lstat os path <> Some Symlink ->
  stat os path <> None ->
  Bioluigi.FileParameter_parse os x (Bioluigi.mkFileParameter Bioluigi.NON_EXISTING stored)
  = mkOutcome (inl (PathMustNotExist path))
      (Bioluigi.mkFileParameter Bioluigi.NON_EXISTING stored)
      [Call_islink path; Call_exists path].
Proof.
  intros Hl Hs. by_answers os x; try congruence; vm_compute; reflexivity.
Qed.

(** Whatever the outcome, the link probe is the first call and at most
    one existence probe follows it. *)
Lemma parse_probes_link_first (self : Bioluigi.FileParameter) :
  exists rest,
    events (Bioluigi.FileParameter_parse os x self) = Call_islink path :: rest
    /\ (rest = [] \/ rest = [Call_isfile path] \/ rest = [Call_exists path]).
Proof.
  destruct self as [[] stored]; by_answers os x;
    eexists; (split; [vm_compute; reflexivity | auto]).
Qed.

Lemma parse_keeps_existence (self : Bioluigi.FileParameter) :
  Bioluigi.existence (final (Bioluigi.FileParameter_parse os x self))
  = Bioluigi.existence self.
Proof.
  destruct self as [[] stored]; by_answers os x; vm_compute; reflexivity.
Qed.

(** A failed path check assigns nothing; a passed one stores what it
    returns, the absolute path. *)
Lemma parse_failure_assigns_nothing (self : Bioluigi.FileParameter) (e : Exception) :
  result (Bioluigi.FileParameter_parse os x self) = inl e ->
  final (Bioluigi.FileParameter_parse os x self) = self.
Proof.
  destruct self as [[] stored]; by_answers os x; vm_compute;
    intros H; try reflexivity; discriminate H.
Qed.

Lemma parse_success_stores (self : Bioluigi.FileParameter) (v : option string) :
  result (Bioluigi.FileParameter_parse os x self) = inr v ->
  v = Some path
  /\ final (Bioluigi.FileParameter_parse os x self)
     = Bioluigi.mkFileParameter (Bioluigi.existence self) (Some path)
  /\ lstat os path <> Some Symlink.
Proof.
  destruct self as [[] stored]; expose_probes;
    destruct (lstat os path) as [[]|] eqn:Hl; destruct (stat os path) as [[]|];
    intros H; vm_compute in H; try discriminate H;
    inversion H; (split; [reflexivity | split; [vm_compute; reflexivity | discriminate]]).
Qed.
End PathCheck.

(** ** The link rule and the existence rule *)

(** C2. When the absolute path of the input is a symbolic link, [parse]
    raises the link error, whatever the requirement of the parameter and
    whatever [stat] says about the target of the link; the link probe is
    the only call made, so no existence probe comes before the rejection
    (and on every input the link probe is the first call). *)
Theorem link_rejected_before_existence
    (os : Os) (x : string) (requirement : Bioluigi.FileExistence) (stored : option string)
    (Hlink : lstat os (abspath os x) = Some Symlink) :
  result (Bioluigi.FileParameter_parse os x (Bioluigi.mkFileParameter requirement stored))
  = inl LinkNotSupported
  /\ events (Bioluigi.FileParameter_parse os x (Bioluigi.mkFileParameter requirement stored))
     = [Call_islink (abspath os x)]
  /\ calls is_existence_probe
       (events (Bioluigi.FileParameter_parse os x
                  (Bioluigi.mkFileParameter requirement stored))) = 0.
Proof.
  rewrite (parse_link os x _ Hlink). simpl. repeat split; reflexivity.
Qed.

(** A link to an existing file under [EXISTING], and a link to nothing
    under [NON_EXISTING]. *)
Lemma link_rejected_before_existence_witness :
  (lstat Posix.os (abspath Posix.os "data/link.fasta") = Some Symlink
   /\ stat Posix.os (abspath Posix.os "data/link.fasta") = Some Regular
   /\ result (Bioluigi.FileParameter_parse Posix.os "data/link.fasta"
                (fresh Bioluigi.EXISTING)) = inl LinkNotSupported)
  /\ (lstat Posix.os (abspath Posix.os "data/dangling.fasta") = Some Symlink
      /\ stat Posix.os (abspath Posix.os "data/dangling.fasta") = None
      /\ result (Bioluigi.FileParameter_parse Posix.os "data/dangling.fasta"
                   (fresh Bioluigi.NON_EXISTING)) = inl LinkNotSupported).
Proof.
  split; (split; [vm_compute; reflexivity | split; [vm_compute; reflexivity |]]).
  - apply (link_rejected_before_existence Posix.os "data/link.fasta"
             Bioluigi.EXISTING None).
    vm_compute; reflexivity.
  - apply (link_rejected_before_existence Posix.os "data/dangling.fasta"
             Bioluigi.NON_EXISTING None).
    vm_compute; reflexivity.
Defined.

(** C3. When the absolute path of the input is not a symbolic link, a
    parameter that requires an existing file accepts the input exactly
    when the path names a regular file, and then returns the path; for a
    directory, for any other kind of file and for a path that names
    nothing it raises the error of the missing file. *)
Theorem existing_accepts_regular_files_only
    (os : Os) (x : string) (stored : option string)
    (Hnolink : lstat os (abspath os x) <> Some Symlink) :
  let o := Bioluigi.FileParameter_parse os x
             (Bioluigi.mkFileParameter Bioluigi.EXISTING stored) in
  (succeeded o = true <-> stat os (abspath os x) = Some Regular)
  /\ (stat os (abspath os x) = Some Regular -> result o = inr (Some (abspath os x)))
  /\ (stat os (abspath os x) = Some Directory ->
      result o = inl (RequiredFileMissing (abspath os x)))
  /\ (stat os (abspath os x) = Some Special ->
      result o = inl (RequiredFileMissing (abspath os x)))
  /\ (stat os (abspath os x) = None ->
      result o = inl (RequiredFileMissing (abspath os x))).
Proof.
  intros o. subst o.
  assert (Hmiss : stat os (abspath os x) <> Some Regular ->
                  Bioluigi.FileParameter_parse os x
                    (Bioluigi.mkFileParameter Bioluigi.EXISTING stored)
                  = mkOutcome (inl (RequiredFileMissing (abspath os x)))
                      (Bioluigi.mkFileParameter Bioluigi.EXISTING stored)
                      [Call_islink (abspath os x); Call_isfile (abspath os x)])
    by (intros; apply parse_existing_missing; assumption).
  repeat split.
  - intros Hok. destruct (stat os (abspath os x)) as [[]|] eqn:Hs; try reflexivity;
      rewrite Hmiss in Hok by discriminate; discriminate Hok.
  - intros Hs. rewrite (parse_existing_file os x stored Hnolink Hs). reflexivity.
  - intros Hs. rewrite (parse_existing_file os x stored Hnolink Hs). reflexivity.
  - intros Hs. rewrite Hmiss by congruence. reflexivity.
  - intros Hs. rewrite Hmiss by congruence. reflexivity.
  - intros Hs. rewrite Hmiss by congruence. reflexivity.
Qed.

(** The regular file of the first scenario is accepted, the directory,
    the pipe and a path that names nothing are not. *)
Lemma existing_accepts_regular_files_only_witness :
  result (Bioluigi.FileParameter_parse Posix.os "./data/reads.fasta"
            (fresh Bioluigi.EXISTING)) = inr (Some "/work/data/reads.fasta")
  /\ result (Bioluigi.FileParameter_parse Posix.os "data" (fresh Bioluigi.EXISTING))
     = inl (RequiredFileMissing "/work/data")
  /\ result (Bioluigi.FileParameter_parse Posix.os "pipe" (fresh Bioluigi.EXISTING))
     = inl (RequiredFileMissing "/work/pipe")
  /\ result (Bioluigi.FileParameter_parse Posix.os "data/gone.fasta"
               (fresh Bioluigi.EXISTING))
     = inl (RequiredFileMissing "/work/data/gone.fasta").
Proof.
  split; [|split; [|split]].
  - destruct (existing_accepts_regular_files_only Posix.os "./data/reads.fasta" None
                ltac:(vm_compute; discriminate)) as (_ & Hfile & _).
    apply Hfile. vm_compute; reflexivity.
  - destruct (existing_accepts_regular_files_only Posix.os "data" None
                ltac:(vm_compute; discriminate)) as (_ & _ & Hdir & _).
    apply Hdir. vm_compute; reflexivity.
  - destruct (existing_accepts_regular_files_only Posix.os "pipe" None
                ltac:(vm_compute; discriminate)) as (_ & _ & _ & Hspecial & _).
    apply Hspecial. vm_compute; reflexivity.
  - destruct (existing_accepts_regular_files_only Posix.os "data/gone.fasta" None
                ltac:(vm_compute; discriminate)) as (_ & _ & _ & _ & Hnone).
    apply Hnone. vm_compute; reflexivity.
Defined.

(** C4. When the absolute path of the input is not a symbolic link, a
    parameter that requires an absent file accepts the input exactly when
    [stat] finds nothing at the path, and then returns the path; when
    anything is there, a regular file, a directory or another kind of
    file, it raises the error of the file that must not exist. *)
Theorem non_existing_accepts_free_paths_only
    (os : Os) (x : string) (stored : option string)
    (Hnolink : lstat os (abspath os x) <> Some Symlink) :
  let o := Bioluigi.FileParameter_parse os x
             (Bioluigi.mkFileParameter Bioluigi.NON_EXISTING stored) in
  (succeeded o = true <-> stat os (abspath os x) = None)
  /\ (stat os (abspath os x) = None -> result o = inr (Some (abspath os x)))
  /\ (forall k : FileKind, stat os (abspath os x) = Some k ->
      result o = inl (PathMustNotExist (abspath os x))).
Proof.
  intros o. subst o. repeat split.
  - intros Hok. destruct (stat os (abspath os x)) as [k|] eqn:Hs; [|reflexivity].
    rewrite (parse_non_existing_taken os x stored Hnolink) in Hok by congruence.
    discriminate Hok.
  - intros Hs. rewrite (parse_non_existing_free os x stored Hnolink Hs). reflexivity.
  - intros Hs. rewrite (parse_non_existing_free os x stored Hnolink Hs). reflexivity.
  - intros k Hs. rewrite (parse_non_existing_taken os x stored Hnolink) by congruence.
    reflexivity.
Qed.

(** The fourth scenario: a path that names nothing is accepted; a regular
    file and a directory are refused. *)
Lemma non_existing_accepts_free_paths_only_witness :
  result (Bioluigi.FileParameter_parse Posix.os "data/new.fasta"
            (fresh Bioluigi.NON_EXISTING)) = inr (Some "/work/data/new.fasta")
  /\ result (Bioluigi.FileParameter_parse Posix.os "data/reads.fasta"
               (fresh Bioluigi.NON_EXISTING))
     = inl (PathMustNotExist "/work/data/reads.fasta")
  /\ result (Bioluigi.FileParameter_parse Posix.os "data" (fresh Bioluigi.NON_EXISTING))
     = inl (PathMustNotExist "/work/data").
Proof.
  split; [|split].
  - destruct (non_existing_accepts_free_paths_only Posix.os "data/new.fasta" None
                ltac:(vm_compute; discriminate)) as (_ & Hfree & _).
    apply Hfree. vm_compute; reflexivity.
  - destruct (non_existing_accepts_free_paths_only Posix.os "data/reads.fasta" None
                ltac:(vm_compute; discriminate)) as (_ & _ & Htaken).
    apply (Htaken Regular). vm_compute; reflexivity.
  - destruct (non_existing_accepts_free_paths_only Posix.os "data" None
                ltac:(vm_compute; discriminate)) as (_ & _ & Htaken).
    apply (Htaken Directory). vm_compute; reflexivity.
Defined.

(** ** The content stage *)

Section ContentStage.
Context (os : Os) {Stats : Type}
        (from_file : option string -> string -> Exception + Stats)
        (x : string) (self : Bioluigi.SequenceFileParameter Stats).
Local Abbreviation path := (abspath os x).
Local Abbreviation base := (Bioluigi.FileParameter_parse os x (Bioluigi.super self)).
Local Abbreviation gated := (Bioluigi.SequenceFileParameter_parse os from_file x self).

(** A rejected path ends the method at once, with the error of the base
    class and its calls, and the instance untouched. *)
Lemma gated_path_rejected (e : Exception) :
  result base = inl e ->
  gated = mkOutcome (inl e) self (events base).
Proof.
  intros H. pose proof (parse_failure_assigns_nothing os x _ e H) as Hf.
  unfold Bioluigi.SequenceFileParameter_parse.
  rewrite (bind_raised _ _ self e) by exact H.
  unfold zoom. cbn [final events]. rewrite Hf.
  destruct self; reflexivity.
Qed.

(** After an accepted path the extractor is called on the stored path,
    and the predicate on what it returns. *)
Lemma gated_path_accepted (v : option string) :
  result base = inr v ->
  gated =
    match from_file (Some path) "fasta" with
    | inl e =>
        mkOutcome (inl e) (path_stored path self)
          (events base ++ [Call_from_file (Some path) "fasta"])
    | inr stats =>
        mkOutcome
          (if Bioluigi.predicate self stats then inr (Some path)
           else inl (PredicateFailed path))
          (path_stored path self)
          (events base ++ [Call_from_file (Some path) "fasta"; Call_predicate])
    end.
Proof.
  intros H. destruct (parse_success_stores os x _ v H) as (-> & Hf & _).
  unfold Bioluigi.SequenceFileParameter_parse.
  rewrite (bind_returned _ _ self (Some path)) by exact H.
  unfold zoom. cbn [final events]. rewrite Hf.
  generalize (events base). intros probes.
  destruct self as [[requirement stored] accept].
  cbv beta iota zeta delta
    [bind get ret emit raise Bioluigi.SequenceFileParameter_stats
     Bioluigi.SequenceFileStats_from_file Bioluigi.call_predicate
     Bioluigi.set_super Bioluigi.super Bioluigi.absolute_path Bioluigi.predicate
     Bioluigi.existence path_stored result final events].
  destruct (from_file (Some path) "fasta") as [e|stats]; [reflexivity|].
  destruct (accept stats); reflexivity.
Qed.

(** The gated [parse] returns only what the path check returned. *)
Lemma gated_returned (v : option string) :
  result gated = inr v ->
  result base = inr v
  /\ v = Some path
  /\ final gated = path_stored path self
  /\ lstat os path <> Some Symlink.
Proof.
  intros Hok. destruct (result base) as [e|w] eqn:Hb.
  - rewrite (gated_path_rejected e Hb) in Hok. discriminate Hok.
  - destruct (parse_success_stores os x _ w Hb) as (-> & _ & Hnolink).
    rewrite (gated_path_accepted _ Hb) in Hok |- *.
    destruct (from_file (Some path) "fasta") as [e|stats];
      cbn [result final] in *; [discriminate Hok|].
    destruct (Bioluigi.predicate self stats); [|discriminate Hok].
    inversion Hok. auto.
Qed.

(** The path check itself calls neither the extractor nor the
    predicate. *)
Lemma base_calls_no_content :
  calls is_extractor_call (events base) = 0
  /\ calls is_predicate_call (events base) = 0.
Proof.
  destruct (parse_probes_link_first os x (Bioluigi.super self)) as (rest & -> & Hrest).
  destruct Hrest as [-> | [-> | ->]]; split; reflexivity.
Qed.

Lemma calls_app (which : Event -> bool) (l1 l2 : list Event) :
  calls which (l1 ++ l2) = calls which l1 + calls which l2.
Proof.
  unfold calls. rewrite List.filter_app, List.length_app. reflexivity.
Qed.
End ContentStage.

(** C5. In a call of the gated [parse]: when the path check of the base
    class fails, its error is the error of the call and neither the
    extractor nor the predicate is called. In every call each of the two
    is called at most once; when the predicate is called, the path check
    has passed, the extractor has returned the statistics of the accepted
    path, and the two calls come after the probes of the path check. *)
Theorem content_inspected_only_after_path_check
    (os : Os) (Stats : Type) (from_file : option string -> string -> Exception + Stats)
    (x : string) (self : Bioluigi.SequenceFileParameter Stats) :
  let base := Bioluigi.FileParameter_parse os x (Bioluigi.super self) in
  let gated := Bioluigi.SequenceFileParameter_parse os from_file x self in
  (forall e, result base = inl e ->
     result gated = inl e
     /\ calls is_extractor_call (events gated) = 0
     /\ calls is_predicate_call (events gated) = 0)
  /\ calls is_extractor_call (events gated) <= 1
  /\ calls is_predicate_call (events gated) <= 1
  /\ (calls is_predicate_call (events gated) = 1 ->
      result base = inr (Some (abspath os x))
      /\ lstat os (abspath os x) <> Some Symlink
      /\ (exists stats, from_file (Some (abspath os x)) "fasta" = inr stats)
      /\ events gated
         = events base ++ [Call_from_file (Some (abspath os x)) "fasta"; Call_predicate]).
Proof.
  cbv zeta.
  destruct (base_calls_no_content os x self) as [Hx Hp].
  destruct (result (Bioluigi.FileParameter_parse os x (Bioluigi.super self)))
    as [e|v] eqn:Hb.
  - rewrite (gated_path_rejected os from_file x self e Hb).
    cbn [result events]. rewrite Hx, Hp.
    split; [|split; [lia | split; [lia | discriminate]]].
    intros e' He'. inversion He'. auto.
  - destruct (parse_success_stores os x _ v Hb) as (-> & _ & Hnolink).
    rewrite (gated_path_accepted os from_file x self _ Hb).
    destruct (from_file (Some (abspath os x)) "fasta") as [e|stats];
      cbn [result events]; rewrite !calls_app, Hx, Hp;
      cbn [calls List.filter length is_extractor_call is_predicate_call Nat.add];
      (split; [discriminate | split; [lia | split; [lia |]]]).
    + discriminate.
    + intros _. split; [reflexivity | split; [exact Hnolink | split; [|reflexivity]]].
      exists stats. reflexivity.
Qed.

(** A link is rejected without a look at the content; the file of the
    third scenario is read once and judged once. *)
Lemma content_inspected_only_after_path_check_witness :
  calls is_extractor_call
    (events (Bioluigi.SequenceFileParameter_parse Posix.os
               (Posix.fasta_from_file Posix.data) "data/link.fasta"
               (fresh_sequence Posix.has_at_least_one_sequence))) = 0
  /\ events (Bioluigi.SequenceFileParameter_parse Posix.os
               (Posix.fasta_from_file Posix.data) "data/notes.txt"
               (fresh_sequence Posix.has_at_least_one_sequence))
     = [Call_islink "/work/data/notes.txt"; Call_isfile "/work/data/notes.txt";
        Call_from_file (Some "/work/data/notes.txt") "fasta"; Call_predicate].
Proof.
  split.
  - apply (content_inspected_only_after_path_check Posix.os nat
             (Posix.fasta_from_file Posix.data) "data/link.fasta"
             (fresh_sequence Posix.has_at_least_one_sequence))
      with (e := LinkNotSupported).
    vm_compute; reflexivity.
  - apply (content_inspected_only_after_path_check Posix.os nat
             (Posix.fasta_from_file Posix.data) "data/notes.txt"
             (fresh_sequence Posix.has_at_least_one_sequence)).
    vm_compute; reflexivity.
Defined.

(** C8. When the gated [parse] returns, it returns what the [parse] of the
    base class returned for the same input, the absolute path of the
    input, and that path is what the instance holds; the content stage
    leaves the instance as the path check left it. *)
Theorem gated_success_returns_checked_path
    (os : Os) (Stats : Type) (from_file : option string -> string -> Exception + Stats)
    (x : string) (self : Bioluigi.SequenceFileParameter Stats) (v : option string)
    (Hok : result (Bioluigi.SequenceFileParameter_parse os from_file x self) = inr v) :
  result (Bioluigi.FileParameter_parse os x (Bioluigi.super self)) = inr v
  /\ v = Some (abspath os x)
  /\ Bioluigi.absolute_path
       (Bioluigi.super (final (Bioluigi.SequenceFileParameter_parse os from_file x self)))
     = v
  /\ final (Bioluigi.SequenceFileParameter_parse os from_file x self)
     = Bioluigi.set_super
         (final (Bioluigi.FileParameter_parse os x (Bioluigi.super self))) self.
Proof.
  destruct (gated_returned os from_file x self v Hok) as (Hb & -> & Hf & _).
  destruct (parse_success_stores os x _ _ Hb) as (_ & Hfb & _).
  rewrite Hf, Hfb. split; [exact Hb|]. split; [reflexivity|].
  split; reflexivity.
Qed.

(** The FASTA file with two records, under the predicate that asks for
    one. *)
Lemma gated_success_returns_checked_path_witness :
  result (Bioluigi.FileParameter_parse Posix.os "./data/reads.fasta"
            (fresh Bioluigi.EXISTING)) = inr (Some "/work/data/reads.fasta")
  /\ Bioluigi.absolute_path
       (Bioluigi.super
          (final (Bioluigi.SequenceFileParameter_parse Posix.os
                    (Posix.fasta_from_file Posix.data) "./data/reads.fasta"
                    (fresh_sequence Posix.has_at_least_one_sequence))))
     = Some "/work/data/reads.fasta".
Proof.
  pose proof (gated_success_returns_checked_path Posix.os nat
                (Posix.fasta_from_file Posix.data) "./data/reads.fasta"
                (fresh_sequence Posix.has_at_least_one_sequence)
                (Some "/work/data/reads.fasta") ltac:(vm_compute; reflexivity))
    as (Hbase & _ & Hstored & _).
  split; assumption.
Defined.

(** ** What a failed call leaves on the instance *)

(** The third scenario on the code: the file is there and is not a link,
    its statistics fail the predicate, the call raises, and the instance
    holds the path that the path check stored. *)
Lemma predicate_failure_retains_path :
  result (Bioluigi.SequenceFileParameter_parse Posix.os
            (Posix.fasta_from_file Posix.data) "data/notes.txt"
            (fresh_sequence Posix.has_at_least_one_sequence))
  = inl (PredicateFailed "/work/data/notes.txt")
  /\ Bioluigi.absolute_path
       (Bioluigi.super
          (final (Bioluigi.SequenceFileParameter_parse Posix.os
                    (Posix.fasta_from_file Posix.data) "data/notes.txt"
                    (fresh_sequence Posix.has_at_least_one_sequence))))
     = Some "/work/data/notes.txt"
  /\ Bioluigi.absolute_path
       (Bioluigi.super
          (final (Bioluigi.SequenceFileParameter_parse Posix.os
                    (Posix.fasta_from_file Posix.data) "data/notes.txt"
                    (fresh_sequence Posix.has_at_least_one_sequence))))
     <> None.
Proof.
  split; [|split]; vm_compute; [reflexivity | reflexivity | discriminate].
Qed.

(** C1, as the code has it. A call that fails in the path check, on the
    link rule or on the existence rule, leaves the instance as it was: a
    parameter that held no path holds none, for the plain and for the
    gated parameter. A call of the gated [parse] that fails after the path
    check, in the extractor or on the predicate, leaves the instance
    holding the absolute path that the path check stored. *)
Theorem failed_call_and_stored_path
    (os : Os) (Stats : Type) (from_file : option string -> string -> Exception + Stats)
    (x : string) (self : Bioluigi.SequenceFileParameter Stats) (e : Exception) :
  (result (Bioluigi.FileParameter_parse os x (Bioluigi.super self)) = inl e ->
   final (Bioluigi.FileParameter_parse os x (Bioluigi.super self)) = Bioluigi.super self
   /\ final (Bioluigi.SequenceFileParameter_parse os from_file x self) = self)
  /\ (succeeded (Bioluigi.FileParameter_parse os x (Bioluigi.super self)) = true ->
      result (Bioluigi.SequenceFileParameter_parse os from_file x self) = inl e ->
      Bioluigi.absolute_path
        (Bioluigi.super (final (Bioluigi.SequenceFileParameter_parse os from_file x self)))
      = Some (abspath os x)).
Proof.
  split.
  - intros Hb. split.
    + exact (parse_failure_assigns_nothing os x _ e Hb).
    + rewrite (gated_path_rejected os from_file x self e Hb). reflexivity.
  - unfold succeeded. intros Hb _.
    destruct (result (Bioluigi.FileParameter_parse os x (Bioluigi.super self)))
      as [e'|v] eqn:Hr; [discriminate Hb|].
    rewrite (gated_path_accepted os from_file x self v Hr).
    destruct (from_file (Some (abspath os x)) "fasta"); reflexivity.
Qed.

(** A link leaves a fresh gated parameter without a path; an empty file,
    which the extractor refuses, leaves it with the path of the file. *)
Lemma failed_call_and_stored_path_witness :
  final (Bioluigi.SequenceFileParameter_parse Posix.os
           (Posix.fasta_from_file Posix.data) "data/link.fasta"
           (fresh_sequence Posix.has_at_least_one_sequence))
  = fresh_sequence Posix.has_at_least_one_sequence
  /\ Bioluigi.absolute_path
       (Bioluigi.super
          (final (Bioluigi.SequenceFileParameter_parse Posix.os
                    (Posix.fasta_from_file Posix.data) "data/empty.fasta"
                    (fresh_sequence Posix.has_at_least_one_sequence))))
     = Some "/work/data/empty.fasta".
Proof.
  split.
  - apply (failed_call_and_stored_path Posix.os nat (Posix.fasta_from_file Posix.data)
             "data/link.fasta" (fresh_sequence Posix.has_at_least_one_sequence)
             LinkNotSupported).
    vm_compute; reflexivity.
  - apply (failed_call_and_stored_path Posix.os nat (Posix.fasta_from_file Posix.data)
             "data/empty.fasta" (fresh_sequence Posix.has_at_least_one_sequence)
             (ValueError "empty file")).
    + vm_compute; reflexivity.
    + vm_compute; reflexivity.
Defined.

(** ** Calling twice *)

Lemma parse_ignores_stored_path
    (os : Os) (x : string) (requirement : Bioluigi.FileExistence)
    (stored stored' : option string) :
  result (Bioluigi.FileParameter_parse os x (Bioluigi.mkFileParameter requirement stored))
  = result (Bioluigi.FileParameter_parse os x
              (Bioluigi.mkFileParameter requirement stored'))
  /\ events (Bioluigi.FileParameter_parse os x
               (Bioluigi.mkFileParameter requirement stored))
     = events (Bioluigi.FileParameter_parse os x
                 (Bioluigi.mkFileParameter requirement stored')).
Proof.
  destruct requirement; by_answers os x; split; vm_compute; reflexivity.
Qed.

Lemma parse_again (os : Os) (x : string) (self : Bioluigi.FileParameter) :
  Bioluigi.FileParameter_parse os x (final (Bioluigi.FileParameter_parse os x self))
  = Bioluigi.FileParameter_parse os x self.
Proof.
  destruct self as [[] stored]; expose_probes;
    destruct (lstat os (abspath os x)) as [[]|];
    destruct (stat os (abspath os x)) as [[]|];
    vm_compute; reflexivity.
Qed.

(** C9. A second call of [parse] with the same input, on the instance as
    the first call left it and with the same answers from the operating
    system (and, for the gated parameter, from the extractor and the
    predicate), has the outcome of the first: the same error or the same
    absolute path, the same instance afterwards, and the same calls to the
    outside made again. *)
Theorem parse_twice_same_outcome
    (os : Os) (Stats : Type) (from_file : option string -> string -> Exception + Stats)
    (x : string) :
  (forall self : Bioluigi.FileParameter,
     Bioluigi.FileParameter_parse os x (final (Bioluigi.FileParameter_parse os x self))
     = Bioluigi.FileParameter_parse os x self)
  /\ (forall self : Bioluigi.SequenceFileParameter Stats,
        Bioluigi.SequenceFileParameter_parse os from_file x
          (final (Bioluigi.SequenceFileParameter_parse os from_file x self))
        = Bioluigi.SequenceFileParameter_parse os from_file x self).
Proof.
  split.
  - intros self. apply parse_again.
  - intros self.
    destruct (result (Bioluigi.FileParameter_parse os x (Bioluigi.super self)))
      as [e|v] eqn:Hb.
    + pose proof (gated_path_rejected os from_file x self e Hb) as Hg.
      rewrite Hg. cbn [final]. exact Hg.
    + destruct (parse_success_stores os x _ v Hb) as (-> & Hf & _).
      assert (Hfinal : final (Bioluigi.SequenceFileParameter_parse os from_file x self)
                       = path_stored (abspath os x) self).
      { rewrite (gated_path_accepted os from_file x self _ Hb).
        destruct (from_file (Some (abspath os x)) "fasta"); reflexivity. }
      rewrite Hfinal.
      assert (Hb' : Bioluigi.FileParameter_parse os x
                      (Bioluigi.super (path_stored (abspath os x) self))
                    = Bioluigi.FileParameter_parse os x (Bioluigi.super self)).
      { unfold path_stored. simpl. rewrite <- Hf. apply parse_again. }
      assert (Hr' : result (Bioluigi.FileParameter_parse os x
                              (Bioluigi.super (path_stored (abspath os x) self)))
                    = inr (Some (abspath os x))) by (rewrite Hb'; exact Hb).
      rewrite (gated_path_accepted os from_file x _ _ Hr').
      rewrite (gated_path_accepted os from_file x self _ Hb).
      rewrite Hb'. reflexivity.
Qed.

(** ** The two copies *)

(** C10. For every input, every requirement and every answer of the
    operating system, the [parse] of the older copy and the [parse] of
    [bioluigi/parameter.py] raise the same exception with the same
    message or return the same absolute path, after the same probes. The
    older copy has nothing to assign; the newer one stores the path it
    returns and, when it raises, leaves what was stored. *)
Theorem copies_agree
    (os : Os) (x : string) (requirement : Luigibio.FileExistence)
    (stored : option string) :
  let older := Luigibio.FileParameter_parse os x (Luigibio.mkFileParameter requirement) in
  let newer := Bioluigi.FileParameter_parse os x
                 (Bioluigi.mkFileParameter (same_member requirement) stored) in
  result newer
  = match result older with
    | inl e => inl e
    | inr absolute_path => inr (Some absolute_path)
    end
  /\ events newer = events older
  /\ final older = Luigibio.mkFileParameter requirement
  /\ final newer
     = Bioluigi.mkFileParameter (same_member requirement)
         match result older with
         | inl _ => stored
         | inr absolute_path => Some absolute_path
         end.
Proof.
  cbv zeta. destruct requirement; by_answers os x;
    (split; [|split; [|split]]); vm_compute; reflexivity.
Qed.

(** ** The messages *)

(** The three formatted messages name the path. *)
Lemma formatted_messages_name_path (path : string) :
  contains path (message (RequiredFileMissing path)) = true
  /\ contains path (message (PathMustNotExist path)) = true
  /\ contains path (message (PredicateFailed path)) = true.
Proof.
  unfold RequiredFileMissing, PathMustNotExist, PredicateFailed, message.
  repeat split; apply contains_app.
Qed.

(** The message of the link rule is the template itself, for every link. *)
Lemma link_message_is_the_template
    (os : Os) (x : string) (self : Bioluigi.FileParameter) :
  lstat os (abspath os x) = Some Symlink ->
  result (Bioluigi.FileParameter_parse os x self)
  = inl (ValueError "File {} is a symbolic link. This is currently not supported").
Proof.
  intros Hl. rewrite (parse_link os x self Hl). reflexivity.
Qed.

(** C6, at a link. [parse] of ["data/link.fasta"] in [/work] raises the
    link error with the message as it is written in the source: the
    replacement field is still in it, and the absolute path of the link,
    [/work/data/link.fasta], is not. The older copy raises the same. *)
Theorem link_message_lacks_path :
  result (Bioluigi.FileParameter_parse Posix.os "data/link.fasta"
            (fresh Bioluigi.EXISTING))
  = inl (ValueError "File {} is a symbolic link. This is currently not supported")
  /\ abspath Posix.os "data/link.fasta" = "/work/data/link.fasta"
  /\ contains "/work/data/link.fasta"
       "File {} is a symbolic link. This is currently not supported" = false
  /\ contains "{}" "File {} is a symbolic link. This is currently not supported" = true
  /\ result (Luigibio.FileParameter_parse Posix.os "data/link.fasta"
               (Luigibio.mkFileParameter Luigibio.EXISTING))
     = inl (ValueError "File {} is a symbolic link. This is currently not supported").
Proof.
  repeat split; vm_compute; reflexivity.
Qed.

(** ** Construction of the gated parameter *)

Lemma init_refuses_positional
    (luigi_Parameter_init : list PyVal -> list (string * PyVal) -> option Exception)
    (Stats : Type) (predicate : Stats -> bool)
    (arg : PyVal) (args : list PyVal) (kwargs : list (string * PyVal)) :
  exists msg,
    Bioluigi.SequenceFileParameter_init luigi_Parameter_init predicate (arg :: args) kwargs
    = inl (TypeError msg).
Proof.
  unfold Bioluigi.SequenceFileParameter_init.
  destruct (has_key "existence" kwargs); eexists; reflexivity.
Qed.

Lemma init_refuses_keyword
    (luigi_Parameter_init : list PyVal -> list (string * PyVal) -> option Exception)
    (Stats : Type) (predicate : Stats -> bool)
    (args : list PyVal) (kwargs : list (string * PyVal)) :
  has_key "existence" kwargs = true ->
  exists msg,
    Bioluigi.SequenceFileParameter_init luigi_Parameter_init predicate args kwargs
    = inl (TypeError msg).
Proof.
  unfold Bioluigi.SequenceFileParameter_init. intros ->. eexists; reflexivity.
Qed.

Lemma init_accepts
    (luigi_Parameter_init : list PyVal -> list (string * PyVal) -> option Exception)
    (Stats : Type) (predicate : Stats -> bool) (kwargs : list (string * PyVal)) :
  has_key "existence" kwargs = false ->
  luigi_Parameter_init [] kwargs = None ->
  Bioluigi.SequenceFileParameter_init luigi_Parameter_init predicate [] kwargs
  = inr (fresh_sequence predicate).
Proof.
  unfold Bioluigi.SequenceFileParameter_init, Bioluigi.FileParameter_init.
  intros -> ->. reflexivity.
Qed.

(** C7. Whatever the predicate and whatever the other arguments of the
    constructor, a gated parameter that is constructed requires an
    existing file: it is the parameter with the requirement [EXISTING], no
    path and the predicate given; it was constructed without positional
    arguments and without the keyword [existence], which are the two ways
    to name a requirement; and its [parse] returns only for a path that
    is not a link and names a regular file. *)
Theorem gated_parameter_requires_existing
    (luigi_Parameter_init : list PyVal -> list (string * PyVal) -> option Exception)
    (Stats : Type) (predicate : Stats -> bool)
    (args : list PyVal) (kwargs : list (string * PyVal))
    (self : Bioluigi.SequenceFileParameter Stats)
    (Hinit : Bioluigi.SequenceFileParameter_init luigi_Parameter_init predicate args kwargs
             = inr self) :
  Bioluigi.existence (Bioluigi.super self) = Bioluigi.EXISTING
  /\ self = fresh_sequence predicate
  /\ args = [] /\ has_key "existence" kwargs = false
  /\ (forall os from_file x,
        succeeded (Bioluigi.SequenceFileParameter_parse os from_file x self) = true ->
        lstat os (abspath os x) <> Some Symlink
        /\ stat os (abspath os x) = Some Regular)
  /\ (forall os from_file x,
        lstat os (abspath os x) <> Some Symlink ->
        stat os (abspath os x) <> Some Regular ->
        result (Bioluigi.SequenceFileParameter_parse os from_file x self)
        = inl (RequiredFileMissing (abspath os x))).
Proof.
  unfold Bioluigi.SequenceFileParameter_init, Bioluigi.FileParameter_init in Hinit.
  destruct (has_key "existence" kwargs) eqn:Hkey; [discriminate Hinit|].
  destruct args as [|arg args]; [|discriminate Hinit].
  destruct (luigi_Parameter_init [] kwargs); [discriminate Hinit|].
  assert (Hself : self = fresh_sequence predicate) by (inversion Hinit; reflexivity).
  clear Hinit. subst self.
  split; [reflexivity|]. split; [reflexivity|]. split; [reflexivity|].
  split; [reflexivity|]. split.
  - intros os from_file x Hok. unfold succeeded in Hok.
    destruct (result (Bioluigi.SequenceFileParameter_parse os from_file x
                        (fresh_sequence predicate))) as [e|v] eqn:Hr;
      [discriminate Hok|].
    destruct (gated_returned os from_file x _ v Hr) as (Hb & _ & _ & Hnolink).
    split; [exact Hnolink|].
    unfold fresh_sequence, fresh in Hb. cbn [Bioluigi.super] in Hb.
    destruct (stat os (abspath os x)) as [[]|] eqn:Hs; try reflexivity;
      rewrite (parse_existing_missing os x None Hnolink) in Hb by congruence;
      discriminate Hb.
  - intros os from_file x Hnolink Hs.
    rewrite (gated_path_rejected os from_file x _ (RequiredFileMissing (abspath os x)));
      [reflexivity|].
    unfold fresh_sequence, fresh. cbn [Bioluigi.super].
    rewrite (parse_existing_missing os x None Hnolink Hs). reflexivity.
Qed.

(** A keyword of luigi goes through; a requirement, by position or by
    name, is refused with [TypeError]. *)
Lemma gated_parameter_requires_existing_witness :
  Bioluigi.SequenceFileParameter_init Posix.luigi_init Posix.has_at_least_one_sequence
    [] [("description", PyStr "the reads")]
  = inr (fresh_sequence Posix.has_at_least_one_sequence)
  /\ Bioluigi.existence
       (Bioluigi.super (fresh_sequence Posix.has_at_least_one_sequence))
     = Bioluigi.EXISTING.
Proof.
  split.
  - vm_compute; reflexivity.
  - apply (gated_parameter_requires_existing Posix.luigi_init nat
             Posix.has_at_least_one_sequence [] [("description", PyStr "the reads")]
             (fresh_sequence Posix.has_at_least_one_sequence)).
    vm_compute; reflexivity.
Defined.

(** ** Further properties of the path check *)

(** The input matters through its absolute path only. *)
Lemma parse_of_same_path (os : Os) (x y : string) (self : Bioluigi.FileParameter) :
  abspath os x = abspath os y ->
  Bioluigi.FileParameter_parse os x self = Bioluigi.FileParameter_parse os y self.
Proof.
  intros H. expose_probes. rewrite H. reflexivity.
Qed.




(** X3. When the absolute path of the input is not a link, the message
    of every exception that [FileParameter.parse] raises contains the
    absolute path. *)
Theorem non_link_errors_name_path
    (os : Os) (x : string) (self : Bioluigi.FileParameter) (e : Exception)
    (Hnolink : lstat os (abspath os x) <> Some Symlink)
    (Hraised : result (Bioluigi.FileParameter_parse os x self) = inl e) :
  contains (abspath os x) (message e) = true.
Proof.
  destruct self as [requirement stored].
  destruct (formatted_messages_name_path (abspath os x)) as (Hmissing & Hpresent & _).
  destruct requirement.
  - destruct (stat os (abspath os x)) as [[]|] eqn:Hs;
      try (rewrite (parse_existing_missing os x stored Hnolink) in Hraised
             by (rewrite Hs; discriminate);
           inversion Hraised; exact Hmissing).
    rewrite (parse_existing_file os x stored Hnolink Hs) in Hraised.
    discriminate Hraised.
  - destruct (stat os (abspath os x)) as [k|] eqn:Hs.
    + rewrite (parse_non_existing_taken os x stored Hnolink) in Hraised
        by (rewrite Hs; discriminate).
      inversion Hraised. exact Hpresent.
    + rewrite (parse_non_existing_free os x stored Hnolink Hs) in Hraised.
      discriminate Hraised.
Qed.

(** The directory under a parameter that requires a file. *)
Lemma non_link_errors_name_path_witness :
  contains "/work/data" "File /work/data does not exist or it is not a regular file!"
  = true.
Proof.
  apply (non_link_errors_name_path Posix.os "data" (fresh Bioluigi.EXISTING)
           (RequiredFileMissing "/work/data")).
  - vm_compute; discriminate.
  - vm_compute; reflexivity.
Defined.

(** X4. Two inputs with the same absolute path are parsed alike, by the
    plain and by the gated parameter: the same result, the same instance
    afterwards, the same calls. *)
Theorem spellings_of_a_path_parse_alike
    (os : Os) (Stats : Type) (from_file : option string -> string -> Exception + Stats)
    (x y : string)
    (Hsame : abspath os x = abspath os y) :
  (forall self : Bioluigi.FileParameter,
     Bioluigi.FileParameter_parse os x self = Bioluigi.FileParameter_parse os y self)
  /\ (forall self : Bioluigi.SequenceFileParameter Stats,
        Bioluigi.SequenceFileParameter_parse os from_file x self
        = Bioluigi.SequenceFileParameter_parse os from_file y self).
Proof.
  split.
  - intros self. apply parse_of_same_path, Hsame.
  - intros self.
    pose proof (parse_of_same_path os x y (Bioluigi.super self) Hsame) as Hbase.
    destruct (result (Bioluigi.FileParameter_parse os x (Bioluigi.super self)))
      as [e|v] eqn:Hx.
    + assert (Hy : result (Bioluigi.FileParameter_parse os y (Bioluigi.super self))
                   = inl e) by (rewrite <- Hbase; exact Hx).
      rewrite (gated_path_rejected os from_file x self e Hx).
      rewrite (gated_path_rejected os from_file y self e Hy).
      rewrite Hbase. reflexivity.
    + assert (Hy : result (Bioluigi.FileParameter_parse os y (Bioluigi.super self))
                   = inr v) by (rewrite <- Hbase; exact Hx).
      rewrite (gated_path_accepted os from_file x self v Hx).
      rewrite (gated_path_accepted os from_file y self v Hy).
      rewrite Hbase, Hsame. reflexivity.
Qed.

(** The file of the first scenario, written in two ways. *)
Lemma spellings_of_a_path_parse_alike_witness :
  abspath Posix.os "./data/reads.fasta" = abspath Posix.os "data//../data/reads.fasta"
  /\ Bioluigi.FileParameter_parse Posix.os "./data/reads.fasta" (fresh Bioluigi.EXISTING)
     = Bioluigi.FileParameter_parse Posix.os "data//../data/reads.fasta"
         (fresh Bioluigi.EXISTING).
Proof.
  split.
  - vm_compute; reflexivity.
  - apply (spellings_of_a_path_parse_alike Posix.os nat
             (Posix.fasta_from_file Posix.data)
             "./data/reads.fasta" "data//../data/reads.fasta").
    vm_compute; reflexivity.
Defined.

(** ** One instance, many calls *)

Lemma accepts_spec (os : Os) (requirement : Bioluigi.FileExistence)
    (stored : option string) (x : string) :
  final (Bioluigi.FileParameter_parse os x (Bioluigi.mkFileParameter requirement stored))
  = Bioluigi.mkFileParameter requirement
      (if accepts os requirement x then Some (abspath os x) else stored).
Proof.
  unfold accepts, succeeded, fresh.
  destruct (parse_ignores_stored_path os x requirement stored None) as [Hr _].
  rewrite <- Hr.
  destruct (result (Bioluigi.FileParameter_parse os x
                      (Bioluigi.mkFileParameter requirement stored))) as [e|v] eqn:Hres.
  - apply (parse_failure_assigns_nothing os x _ e Hres).
  - destruct (parse_success_stores os x _ v Hres) as (_ & Hf & _). exact Hf.
Qed.

Lemma parsed_in_turn_app (os : Os) (inputs inputs' : list string)
    (self : Bioluigi.FileParameter) :
  parsed_in_turn os (inputs ++ inputs') self
  = parsed_in_turn os inputs' (parsed_in_turn os inputs self).
Proof.
  revert self. induction inputs as [|x inputs IH]; intros self.
  - reflexivity.
  - cbn [parsed_in_turn app]. apply IH.
Qed.

(** X5. After any number of calls of [parse] on one instance, the
    instance holds the absolute path of the last input that was accepted,
    however many calls failed after it; when no input was accepted it
    holds what it held before the calls, which is nothing for a parameter
    as its constructor leaves it. The requirement does not change. *)
Theorem stored_path_is_last_accepted
    (os : Os) (requirement : Bioluigi.FileExistence) (stored : option string)
    (inputs : list string) :
  parsed_in_turn os inputs (Bioluigi.mkFileParameter requirement stored)
  = Bioluigi.mkFileParameter requirement
      match last_accepted os requirement inputs with
      | Some x => Some (abspath os x)
      | None => stored
      end.
Proof.
  unfold last_accepted.
  induction inputs as [|x inputs IH] using List.rev_ind.
  - reflexivity.
  - rewrite parsed_in_turn_app, IH. cbn [parsed_in_turn].
    rewrite accepts_spec, List.rev_app_distr. cbn [List.rev app List.find].
    destruct (accepts os requirement x); reflexivity.
Qed.

(** ** Further properties of the content stage *)

(** X6. The gated [parse] of a parameter that requires a file returns
    exactly when the absolute path is no link, names a regular file, the
    extractor returns statistics for it and the predicate holds of
    them. *)
Theorem gated_accepts_iff
    (os : Os) (Stats : Type) (from_file : option string -> string -> Exception + Stats)
    (x : string) (stored : option string) (predicate : Stats -> bool) :
  succeeded
    (Bioluigi.SequenceFileParameter_parse os from_file x
       {| Bioluigi.super := Bioluigi.mkFileParameter Bioluigi.EXISTING stored;
          Bioluigi.predicate := predicate |}) = true
  <-> (lstat os (abspath os x) <> Some Symlink
       /\ stat os (abspath os x) = Some Regular
       /\ exists stats,
            from_file (Some (abspath os x)) "fasta" = inr stats
            /\ predicate stats = true).
Proof.
  set (self := {| Bioluigi.super := Bioluigi.mkFileParameter Bioluigi.EXISTING stored;
                  Bioluigi.predicate := predicate |}).
  unfold succeeded. split.
  - destruct (result (Bioluigi.SequenceFileParameter_parse os from_file x self))
      as [e|v] eqn:Hr; [discriminate|]. intros _.
    destruct (gated_returned os from_file x self v Hr) as (Hb & -> & _ & Hnolink).
    split; [exact Hnolink|].
    assert (Hs : stat os (abspath os x) = Some Regular).
    { destruct (stat os (abspath os x)) as [[]|] eqn:Hs; try reflexivity;
        subst self; cbn [Bioluigi.super] in Hb;
        rewrite (parse_existing_missing os x stored Hnolink) in Hb
          by (rewrite Hs; discriminate);
        discriminate Hb. }
    split; [exact Hs|].
    rewrite (gated_path_accepted os from_file x self _ Hb) in Hr.
    destruct (from_file (Some (abspath os x)) "fasta") as [e|stats];
      cbn [result] in Hr; [discriminate Hr|].
    exists stats. split; [reflexivity|].
    subst self. cbn [Bioluigi.predicate] in Hr.
    destruct (predicate stats); [reflexivity | discriminate Hr].
  - intros (Hnolink & Hs & stats & Hff & Hp).
    assert (Hb : result (Bioluigi.FileParameter_parse os x (Bioluigi.super self))
                 = inr (Some (abspath os x))).
    { subst self. cbn [Bioluigi.super].
      rewrite (parse_existing_file os x stored Hnolink Hs). reflexivity. }
    rewrite (gated_path_accepted os from_file x self _ Hb), Hff.
    cbn [result]. subst self. cbn [Bioluigi.predicate]. rewrite Hp. reflexivity.
Qed.

(** X7. When the path check passes and the extractor raises, the gated
    [parse] raises the exception of the extractor as it is; the
    extractor was called once, the predicate not at all. *)
Theorem extractor_error_raised_as_is
    (os : Os) (Stats : Type) (from_file : option string -> string -> Exception + Stats)
    (x : string) (self : Bioluigi.SequenceFileParameter Stats)
    (v : option string) (e : Exception)
    (Hpath : result (Bioluigi.FileParameter_parse os x (Bioluigi.super self)) = inr v)
    (Hraises : from_file (Some (abspath os x)) "fasta" = inl e) :
  result (Bioluigi.SequenceFileParameter_parse os from_file x self) = inl e
  /\ calls is_extractor_call
       (events (Bioluigi.SequenceFileParameter_parse os from_file x self)) = 1
  /\ calls is_predicate_call
       (events (Bioluigi.SequenceFileParameter_parse os from_file x self)) = 0.
Proof.
  destruct (base_calls_no_content os x self) as [Hx Hp].
  rewrite (gated_path_accepted os from_file x self v Hpath), Hraises.
  cbn [result events]. rewrite !calls_app, Hx, Hp.
  split; [reflexivity|]. split; reflexivity.
Qed.

(** The empty file, which the extractor of the scenarios refuses. *)
Lemma extractor_error_raised_as_is_witness :
  result (Bioluigi.SequenceFileParameter_parse Posix.os
            (Posix.fasta_from_file Posix.data) "data/empty.fasta"
            (fresh_sequence Posix.has_at_least_one_sequence))
  = inl (ValueError "empty file").
Proof.
  apply (extractor_error_raised_as_is Posix.os nat (Posix.fasta_from_file Posix.data)
           "data/empty.fasta" (fresh_sequence Posix.has_at_least_one_sequence)
           (Some "/work/data/empty.fasta") (ValueError "empty file")).
  - vm_compute; reflexivity.
  - vm_compute; reflexivity.
Defined.

(** X8. When the path check passes, the extractor returns statistics and
    the predicate does not hold of them, the gated [parse] raises the
    [ValueError] of the predicate, whose message contains the absolute
    path; the extractor and the predicate were called once each, in this
    order, after the probes of the path check. *)
Theorem rejected_content_names_path
    (os : Os) (Stats : Type) (from_file : option string -> string -> Exception + Stats)
    (x : string) (self : Bioluigi.SequenceFileParameter Stats)
    (v : option string) (stats : Stats)
    (Hpath : result (Bioluigi.FileParameter_parse os x (Bioluigi.super self)) = inr v)
    (Hstats : from_file (Some (abspath os x)) "fasta" = inr stats)
    (Hfalse : Bioluigi.predicate self stats = false) :
  result (Bioluigi.SequenceFileParameter_parse os from_file x self)
  = inl (PredicateFailed (abspath os x))
  /\ contains (abspath os x) (message (PredicateFailed (abspath os x))) = true
  /\ events (Bioluigi.SequenceFileParameter_parse os from_file x self)
     = events (Bioluigi.FileParameter_parse os x (Bioluigi.super self))
       ++ [Call_from_file (Some (abspath os x)) "fasta"; Call_predicate].
Proof.
  rewrite (gated_path_accepted os from_file x self v Hpath), Hstats.
  cbn [result events]. rewrite Hfalse.
  split; [reflexivity|]. split; [|reflexivity].
  apply (formatted_messages_name_path (abspath os x)).
Qed.

(** The text file of the third scenario, which has no record. *)
Lemma rejected_content_names_path_witness :
  result (Bioluigi.SequenceFileParameter_parse Posix.os
            (Posix.fasta_from_file Posix.data) "data/notes.txt"
            (fresh_sequence Posix.has_at_least_one_sequence))
  = inl (PredicateFailed "/work/data/notes.txt").
Proof.
  apply (rejected_content_names_path Posix.os nat (Posix.fasta_from_file Posix.data)
           "data/notes.txt" (fresh_sequence Posix.has_at_least_one_sequence)
           (Some "/work/data/notes.txt") 0).
  - vm_compute; reflexivity.
  - vm_compute; reflexivity.
  - vm_compute; reflexivity.
Defined.

(** X9. A predicate that holds wherever another holds accepts whatever
    the other accepts: when the gated [parse] returns under the stronger
    predicate, it returns the same path under the weaker one. *)
Theorem weaker_predicate_accepts_more
    (os : Os) (Stats : Type) (from_file : option string -> string -> Exception + Stats)
    (x : string) (base : Bioluigi.FileParameter) (strong weak : Stats -> bool)
    (v : option string)
    (Himplies : forall stats, strong stats = true -> weak stats = true)
    (Hstrong : result (Bioluigi.SequenceFileParameter_parse os from_file x
                         {| Bioluigi.super := base; Bioluigi.predicate := strong |})
               = inr v) :
  result (Bioluigi.SequenceFileParameter_parse os from_file x
            {| Bioluigi.super := base; Bioluigi.predicate := weak |})
  = inr v.
Proof.
  destruct (gated_returned os from_file x _ v Hstrong) as (Hb & -> & _ & _).
  cbn [Bioluigi.super] in Hb.
  rewrite (gated_path_accepted os from_file x
             {| Bioluigi.super := base; Bioluigi.predicate := strong |} _ Hb) in Hstrong.
  rewrite (gated_path_accepted os from_file x
             {| Bioluigi.super := base; Bioluigi.predicate := weak |} _ Hb).
  destruct (from_file (Some (abspath os x)) "fasta") as [e|stats];
    cbn [result Bioluigi.predicate] in *; [discriminate Hstrong|].
  destruct (strong stats) eqn:Hs; [|discriminate Hstrong].
  rewrite (Himplies stats Hs). reflexivity.
Qed.

(** At least one record, weakened to no condition at all. *)
Lemma weaker_predicate_accepts_more_witness :
  result (Bioluigi.SequenceFileParameter_parse Posix.os
            (Posix.fasta_from_file Posix.data) "data/reads.fasta"
            {| Bioluigi.super := fresh Bioluigi.EXISTING;
               Bioluigi.predicate := fun _ : nat => true |})
  = inr (Some "/work/data/reads.fasta").
Proof.
  apply (weaker_predicate_accepts_more Posix.os nat (Posix.fasta_from_file Posix.data)
           "data/reads.fasta" (fresh Bioluigi.EXISTING)
           Posix.has_at_least_one_sequence (fun _ => true)
           (Some "/work/data/reads.fasta")).
  - intros stats _. reflexivity.
  - vm_compute; reflexivity.
Defined.

(** ** [stats] *)

Lemma stats_outcome {Stats : Type}
    (from_file : option string -> string -> Exception + Stats)
    (self : Bioluigi.SequenceFileParameter Stats) :
  Bioluigi.SequenceFileParameter_stats from_file self
  = mkOutcome (from_file (Bioluigi.absolute_path (Bioluigi.super self)) "fasta") self
      [Call_from_file (Bioluigi.absolute_path (Bioluigi.super self)) "fasta"].
Proof.
  unfold Bioluigi.SequenceFileParameter_stats, Bioluigi.SequenceFileStats_from_file,
    bind, get, emit, ret, raise.
  cbn [result final events app].
  destruct (from_file (Bioluigi.absolute_path (Bioluigi.super self)) "fasta");
    reflexivity.
Qed.

Lemma init_returns_fresh
    (luigi_Parameter_init : list PyVal -> list (string * PyVal) -> option Exception)
    (Stats : Type) (predicate : Stats -> bool)
    (args : list PyVal) (kwargs : list (string * PyVal))
    (self : Bioluigi.SequenceFileParameter Stats) :
  Bioluigi.SequenceFileParameter_init luigi_Parameter_init predicate args kwargs = inr self ->
  self = fresh_sequence predicate.
Proof.
  unfold Bioluigi.SequenceFileParameter_init, Bioluigi.FileParameter_init.
  destruct (has_key "existence" kwargs); [discriminate|].
  destruct args; [|discriminate].
  destruct (luigi_Parameter_init [] kwargs); [discriminate|].
  intros H. inversion H. reflexivity.
Qed.

(** X10. [stats] on a gated parameter that was constructed and never
    parsed hands [None] to the extractor as the path, with the format
    [fasta], and returns or raises what the extractor does with it; the
    instance stays as it was. *)
Theorem stats_before_parse_passes_none
    (luigi_Parameter_init : list PyVal -> list (string * PyVal) -> option Exception)
    (Stats : Type) (from_file : option string -> string -> Exception + Stats)
    (predicate : Stats -> bool)
    (args : list PyVal) (kwargs : list (string * PyVal))
    (self : Bioluigi.SequenceFileParameter Stats)
    (Hinit : Bioluigi.SequenceFileParameter_init luigi_Parameter_init predicate args kwargs
             = inr self) :
  Bioluigi.SequenceFileParameter_stats from_file self
  = mkOutcome (from_file None "fasta") self [Call_from_file None "fasta"].
Proof.
  rewrite (init_returns_fresh _ _ _ _ _ _ Hinit).
  apply stats_outcome.
Qed.

(** With the extractor of the scenarios, which refuses [None]. *)
Lemma stats_before_parse_passes_none_witness :
  result (Bioluigi.SequenceFileParameter_stats (Posix.fasta_from_file Posix.data)
            (fresh_sequence Posix.has_at_least_one_sequence))
  = inl (TypeError "expected str, not NoneType").
Proof.
  rewrite (stats_before_parse_passes_none Posix.luigi_init nat
             (Posix.fasta_from_file Posix.data) Posix.has_at_least_one_sequence
             [] [] (fresh_sequence Posix.has_at_least_one_sequence)
             ltac:(vm_compute; reflexivity)).
  reflexivity.
Defined.

(** X11. After a gated [parse] that returned, [stats] calls the extractor
    once more on the path that was accepted and returns statistics of
    which the predicate holds. This stays so after later calls of [parse]
    that fail in the path check: [stats] then still reads the path of
    the call that returned, not the input of the failed call. *)
Theorem stats_reads_last_accepted_path
    (os : Os) (Stats : Type) (from_file : option string -> string -> Exception + Stats)
    (x : string) (self : Bioluigi.SequenceFileParameter Stats) (v : option string)
    (Hok : result (Bioluigi.SequenceFileParameter_parse os from_file x self) = inr v) :
  let after := final (Bioluigi.SequenceFileParameter_parse os from_file x self) in
  events (Bioluigi.SequenceFileParameter_stats from_file after)
  = [Call_from_file (Some (abspath os x)) "fasta"]
  /\ (exists stats,
        result (Bioluigi.SequenceFileParameter_stats from_file after) = inr stats
        /\ Bioluigi.predicate self stats = true)
  /\ (forall y e,
        result (Bioluigi.FileParameter_parse os y (Bioluigi.super after)) = inl e ->
        Bioluigi.SequenceFileParameter_stats from_file
          (final (Bioluigi.SequenceFileParameter_parse os from_file y after))
        = Bioluigi.SequenceFileParameter_stats from_file after).
Proof.
  cbv zeta.
  destruct (gated_returned os from_file x self v Hok) as (Hb & -> & Hf & _).
  rewrite Hf. rewrite !stats_outcome.
  unfold path_stored at 1 2 3 4. cbn [Bioluigi.super Bioluigi.absolute_path result events].
  split; [reflexivity|]. split.
  - rewrite (gated_path_accepted os from_file x self _ Hb) in Hok.
    destruct (from_file (Some (abspath os x)) "fasta") as [e|stats];
      cbn [result] in Hok; [discriminate Hok|].
    exists stats. split; [reflexivity|].
    destruct (Bioluigi.predicate self stats); [reflexivity | discriminate Hok].
  - intros y e Hy.
    rewrite (gated_path_rejected os from_file y _ e Hy). cbn [final].
    rewrite stats_outcome. reflexivity.
Qed.

(** The file of the first scenario, and then a link. *)
Lemma stats_reads_last_accepted_path_witness :
  events
    (Bioluigi.SequenceFileParameter_stats (Posix.fasta_from_file Posix.data)
       (final (Bioluigi.SequenceFileParameter_parse Posix.os
                 (Posix.fasta_from_file Posix.data) "data/reads.fasta"
                 (fresh_sequence Posix.has_at_least_one_sequence))))
  = [Call_from_file (Some "/work/data/reads.fasta") "fasta"].
Proof.
  apply (stats_reads_last_accepted_path Posix.os nat (Posix.fasta_from_file Posix.data)
           "data/reads.fasta" (fresh_sequence Posix.has_at_least_one_sequence)
           (Some "/work/data/reads.fasta")).
  vm_compute; reflexivity.
Defined.

(** ** The older copy and the constructors *)

(** X12. The [parse] of the older copy returns exactly when the absolute
    path is no link and, for a parameter that requires a file, names a
    regular file, or, for one that requires absence, names nothing; it
    then returns the absolute path. It raises the link error for every
    link. The instance is never changed. *)
Theorem older_copy_accepts_iff
    (os : Os) (x : string) (requirement : Luigibio.FileExistence) :
  (succeeded (Luigibio.FileParameter_parse os x (Luigibio.mkFileParameter requirement))
   = true
   <-> lstat os (abspath os x) <> Some Symlink
       /\ match requirement with
          | Luigibio.EXISTING => stat os (abspath os x) = Some Regular
          | Luigibio.NON_EXISTING => stat os (abspath os x) = None
          end)
  /\ (succeeded (Luigibio.FileParameter_parse os x (Luigibio.mkFileParameter requirement))
      = true ->
      result (Luigibio.FileParameter_parse os x (Luigibio.mkFileParameter requirement))
      = inr (abspath os x))
  /\ (lstat os (abspath os x) = Some Symlink ->
      result (Luigibio.FileParameter_parse os x (Luigibio.mkFileParameter requirement))
      = inl LinkNotSupported)
  /\ final (Luigibio.FileParameter_parse os x (Luigibio.mkFileParameter requirement))
     = Luigibio.mkFileParameter requirement.
Proof.
  destruct requirement; by_answers os x; vm_compute;
    intuition (discriminate || congruence).
Qed.

(** X13. The constructor of the gated parameter returns exactly when it
    is called without positional arguments and without the keyword
    [existence] and luigi's constructor accepts the keywords; an
    exception of luigi's constructor is raised as it is. *)
Theorem gated_constructor_returns_iff
    (luigi_Parameter_init : list PyVal -> list (string * PyVal) -> option Exception)
    (Stats : Type) (predicate : Stats -> bool)
    (args : list PyVal) (kwargs : list (string * PyVal)) :
  ((exists self,
      Bioluigi.SequenceFileParameter_init luigi_Parameter_init predicate args kwargs
      = inr self)
   <-> args = [] /\ has_key "existence" kwargs = false
       /\ luigi_Parameter_init [] kwargs = None)
  /\ (forall e,
        args = [] -> has_key "existence" kwargs = false ->
        luigi_Parameter_init [] kwargs = Some e ->
        Bioluigi.SequenceFileParameter_init luigi_Parameter_init predicate args kwargs
        = inl e).
Proof.
  unfold Bioluigi.SequenceFileParameter_init, Bioluigi.FileParameter_init.
  split.
  - split.
    + intros [self H].
      destruct (has_key "existence" kwargs); [discriminate H|].
      destruct args; [|discriminate H].
      destruct (luigi_Parameter_init [] kwargs); [discriminate H|].
      auto.
    + intros (-> & -> & ->). eexists. reflexivity.
  - intros e -> -> ->. reflexivity.
Qed.

(** X14. The constructors of the two copies of [FileParameter] raise the
    same exception, that of luigi's constructor, or both return; the
    newer instance then holds no path, and the first [parse] of the two
    instances raises the same exception or returns the same absolute
    path after the same probes. *)
Theorem constructed_copies_agree
    (luigi_Parameter_init : list PyVal -> list (string * PyVal) -> option Exception)
    (os : Os) (requirement : Luigibio.FileExistence)
    (args : list PyVal) (kwargs : list (string * PyVal)) (x : string) :
  match Luigibio.FileParameter_init luigi_Parameter_init requirement args kwargs,
        Bioluigi.FileParameter_init luigi_Parameter_init (same_member requirement)
          args kwargs
  with
  | inl e, inl e' => e = e' /\ luigi_Parameter_init args kwargs = Some e
  | inr older, inr newer =>
      luigi_Parameter_init args kwargs = None
      /\ Bioluigi.absolute_path newer = None
      /\ result (Bioluigi.FileParameter_parse os x newer)
         = match result (Luigibio.FileParameter_parse os x older) with
           | inl e => inl e
           | inr absolute_path => inr (Some absolute_path)
           end
      /\ events (Bioluigi.FileParameter_parse os x newer)
         = events (Luigibio.FileParameter_parse os x older)
  | _, _ => False
  end.
Proof.
  unfold Luigibio.FileParameter_init, Bioluigi.FileParameter_init.
  destruct (luigi_Parameter_init args kwargs) as [e|].
  - split; reflexivity.
  - split; [reflexivity|]. split; [reflexivity|].
    destruct requirement; by_answers os x; split; vm_compute; reflexivity.
Qed.
